(** * Perfetto UI plugins: CoreCommands, DebugTrackPlugin, JavaOomActivity

    A shallow embedding of
    - [ui/src/plugins/dev.perfetto.CoreCommands/index.ts] (module [CoreCommands]),
    - the debug-track plugin registration (module [DebugTrack]),
    - the CTS activity [JavaOomActivity] (module [JavaOom]),
    together with the two design-level components that the specification
    describes but the sources do not contain, the row validator and the
    track data cache (modules [Validator] and [TrackDataCache]). *)

From Stdlib Require Import ZArith String Ascii List Lia Bool DecimalString.
From stdpp Require Import gmap strings list.

Local Open Scope Z_scope.
Local Open Scope string_scope.
Local Open Scope list_scope.

(** ** JavaScript values and completions *)

Module Js.

(** An error object: the constructor that made it and its message. *)
Record JsError := mkError { error_name : string; error_message : string }.

(** Outcome of evaluating an expression or running a function body:
    a value, or an exception in flight. *)
Inductive Completion (A : Type) :=
| Normal (a : A)
| Throw (e : JsError).
Arguments Normal {A} a.
Arguments Throw {A} e.

(** A value of TypeScript type [unknown].  A Number is carried with the
    text that Number::toString gives for it; an object (or function) is
    carried with the outcome of converting it to a string, which runs the
    object's own [toString]/[valueOf] and may throw. *)
Inductive JsValue :=
| JsUndefined
| JsNull
| JsBoolean (b : bool)
| JsNumber (text : string)
| JsBigInt (n : Z)
| JsString (s : string)
| JsSymbol (description : string)
| JsObject (callable : bool) (to_string : Completion string).

(** The [typeof] operator. *)
Definition typeof (v : JsValue) : string :=
  match v with
  | JsUndefined => "undefined"
  | JsNull => "object"
  | JsBoolean _ => "boolean"
  | JsNumber _ => "number"
  | JsBigInt _ => "bigint"
  | JsString _ => "string"
  | JsSymbol _ => "symbol"
  | JsObject callable _ => if callable then "function" else "object"
  end.

(** BigInt::toString in radix 10. *)
Definition bigint_to_string (n : Z) : string :=
  NilZero.string_of_int (Z.to_int n).

(** The abstract operation ToString, as a template literal applies it to
    each substitution. *)
Definition ToString (v : JsValue) : Completion string :=
  match v with
  | JsUndefined => Normal "undefined"
  | JsNull => Normal "null"
  | JsBoolean b => Normal (if b then "true" else "false")
  | JsNumber text => Normal text
  | JsBigInt n => Normal (bigint_to_string n)
  | JsString s => Normal s
  | JsSymbol _ =>
      Throw (mkError "TypeError" "Cannot convert a Symbol value to a string")
  | JsObject _ to_string => to_string
  end.

(** [exists] of base/utils: the value is neither [undefined] nor [null]. *)
Definition exists_ (v : JsValue) : bool :=
  match v with
  | JsUndefined | JsNull => false
  | _ => true
  end.

(** *** StringToBigInt on ASCII input

    [BigInt(s)] for a string [s]: surrounding white space is dropped, the
    empty string is [0n], a decimal literal may carry one sign, and the
    prefixes [0x], [0o], [0b] (either case) take no sign.  [None] stands
    for the SyntaxError that [BigInt] throws. *)

Definition is_white_space (c : ascii) : bool :=
  let n := nat_of_ascii c in
  ((9 <=? n) && (n <=? 13))%nat || (n =? 32)%nat.

Fixpoint trim_start (s : string) : string :=
  match s with
  | String c rest => if is_white_space c then trim_start rest else s
  | EmptyString => EmptyString
  end.

Fixpoint reverse_onto (s acc : string) : string :=
  match s with
  | String c rest => reverse_onto rest (String c acc)
  | EmptyString => acc
  end.

Definition trim (s : string) : string :=
  reverse_onto (trim_start (reverse_onto (trim_start s) "")) "".

Definition digit_value (c : ascii) : option Z :=
  let n := Z.of_nat (nat_of_ascii c) in
  if ((48 <=? n) && (n <=? 57))%Z then Some (n - 48)
  else if ((97 <=? n) && (n <=? 102))%Z then Some (n - 87)
  else if ((65 <=? n) && (n <=? 70))%Z then Some (n - 55)
  else None.

Fixpoint digits_value (radix acc : Z) (s : string) : option Z :=
  match s with
  | EmptyString => Some acc
  | String c rest =>
      match digit_value c with
      | Some d => if (d <? radix)%Z then digits_value radix (radix * acc + d) rest
                  else None
      | None => None
      end
  end.

(** One digit at least. *)
Definition digits (radix : Z) (s : string) : option Z :=
  match s with
  | EmptyString => None
  | _ => digits_value radix 0 s
  end.

Definition StringToBigInt (s : string) : option Z :=
  match trim s with
  | EmptyString => Some 0
  | String "+" rest => digits 10 rest
  | String "-" rest => Z.opp <$> digits 10 rest
  | String "0" (String c rest) as lit =>
      if (Ascii.eqb c "x" || Ascii.eqb c "X")%bool then digits 16 rest
      else if (Ascii.eqb c "o" || Ascii.eqb c "O")%bool then digits 8 rest
      else if (Ascii.eqb c "b" || Ascii.eqb c "B")%bool then digits 2 rest
      else digits 10 lit
  | lit => digits 10 lit
  end.

(** The last character of a string. *)
Fixpoint last_char (s : string) : option ascii :=
  match s with
  | EmptyString => None
  | String c EmptyString => Some c
  | String _ rest => last_char rest
  end.

End Js.

(** ** The CoreCommands plugin *)

Module CoreCommands.
Import Js.

Definition SQL_STATS : string := "
with first as (select started as ts from sqlstats limit 1)
select
    round((max(ended - started, 0))/1e6) as runtime_ms,
    round((started - first.ts)/1e6) as t_start_ms,
    query
from sqlstats, first
order by started desc".

Definition ALL_PROCESSES_QUERY : string :=
  "select name, pid from process order by name;".

Definition CPU_TIME_FOR_PROCESSES : string := "
select
  process.name,
  sum(dur)/1e9 as cpu_sec
from sched
join thread using(utid)
join process using(upid)
group by upid
order by cpu_sec desc
limit 100;".

Definition CYCLES_PER_P_STATE_PER_CPU : string := "
select
  cpu,
  freq,
  dur,
  sum(dur * freq)/1e6 as mcycles
from (
  select
    cpu,
    value as freq,
    lead(ts) over (partition by cpu order by ts) - ts as dur
  from counter
  inner join cpu_counter_track on counter.track_id = cpu_counter_track.id
  where name = 'cpufreq'
) group by cpu, freq
order by mcycles desc limit 32;".

Definition CPU_TIME_BY_CPU_BY_PROCESS : string := "
select
  process.name as process,
  thread.name as thread,
  cpu,
  sum(dur) / 1e9 as cpu_sec
from sched
inner join thread using(utid)
inner join process using(upid)
group by utid, cpu
order by cpu_sec desc
limit 30;".

Definition HEAP_GRAPH_BYTES_PER_TYPE : string := "
select
  o.upid,
  o.graph_sample_ts,
  c.name,
  sum(o.self_size) as total_self_size
from heap_graph_object o join heap_graph_class c on o.type_id = c.id
group by
 o.upid,
 o.graph_sample_ts,
 c.name
order by total_self_size desc
limit 100;".

(** The tags of a track, as far as the pin predicate reads them:
    [tags.name] may be absent. *)
Record TrackTags := { tags_name : option string }.

Section Host.

(** [time] and [Time.fromRaw] come from base/time and the conversion
    [BigInt(string)] from the language; the plugin is read over any of
    them.  [BigInt_parse s = None] is the case where [BigInt(s)] throws.
    A [time] is a bigint with a brand, so it can stand where a bigint is
    expected, as in [Time.fromRaw(ts)] for [ts : time];
    [time_as_bigint] is that reading. *)
Context {time : Type}.
Variable Time_fromRaw : Z -> time.
Variable BigInt_parse : string -> option Z.
Variable time_as_bigint : time -> Z.

(** What the plugin asks of its host and of [window], call by call. *)
Inductive HostCall :=
| SidebarIsVisible
| SidebarHide
| SidebarShow
| TabsOpenQuery (query title : string)
| TimelinePinTracksByPredicate (predicate : TrackTags -> bool)
| TimelineUnpinTracksByPredicate (predicate : TrackTags -> bool)
| TimelinePanToTimestamp (ts : time)
| WindowPrompt (message : string)
| WindowAlert (message : string).

(** The host behind [ctx] and [window] during one trace session: whether
    the sidebar is shown, what the user answers to a prompt ([None] for
    Cancel), and the calls received so far, oldest first. *)
Record Host := mkHost {
  sidebar_visible : bool;
  prompt_reply : string -> option string;
  calls : list HostCall;
}.

Definition log (c : HostCall) (h : Host) : Host :=
  mkHost (sidebar_visible h) (prompt_reply h) (calls h ++ [c]).

Definition set_sidebar_visible (b : bool) (h : Host) : Host :=
  mkHost b (prompt_reply h) (calls h).

(** Code running against the host: it ends with a value or an exception,
    and leaves the host changed. *)
Definition JS (A : Type) : Type := Host -> Completion A * Host.

Definition ret {A} (a : A) : JS A := fun h => (Normal a, h).

Definition bind {A B} (m : JS A) (k : A -> JS B) : JS B :=
  fun h =>
    match m h with
    | (Normal a, h') => k a h'
    | (Throw e, h') => (Throw e, h')
    end.

Definition throw {A} (e : JsError) : JS A := fun h => (Throw e, h).

(** [try { body } catch { handler }]: the handler runs on the host as the
    body left it. *)
Definition try_catch {A} (body : JS A) (handler : JsError -> JS A) : JS A :=
  fun h =>
    match body h with
    | (Normal a, h') => (Normal a, h')
    | (Throw e, h') => handler e h'
    end.

(** Lifting a pure completion. *)
Definition completed {A} (c : Completion A) : JS A := fun h => (c, h).

Local Notation "x <- m ;; k" := (bind m (fun x => k))
  (at level 100, m at next level, right associativity).
Local Notation "m ;;; k" := (bind m (fun _ => k))
  (at level 100, right associativity).

(** Modelled from the spec: the host's sidebar (the "sidebar visibility
    toggle" of the plugin host, not part of the plugin): [isVisible]
    reads the flag, [hide] clears it and [show] sets it. *)
Definition sidebar_isVisible : JS bool :=
  fun h => (Normal (sidebar_visible h), log SidebarIsVisible h).
Definition sidebar_hide : JS unit :=
  fun h => (Normal tt, set_sidebar_visible false (log SidebarHide h)).
Definition sidebar_show : JS unit :=
  fun h => (Normal tt, set_sidebar_visible true (log SidebarShow h)).

Definition tabs_openQuery (query title : string) : JS unit :=
  fun h => (Normal tt, log (TabsOpenQuery query title) h).
Definition timeline_pinTracksByPredicate (p : TrackTags -> bool) : JS unit :=
  fun h => (Normal tt, log (TimelinePinTracksByPredicate p) h).
Definition timeline_unpinTracksByPredicate (p : TrackTags -> bool) : JS unit :=
  fun h => (Normal tt, log (TimelineUnpinTracksByPredicate p) h).
Definition timeline_panToTimestamp (ts : time) : JS unit :=
  fun h => (Normal tt, log (TimelinePanToTimestamp ts) h).
Definition window_prompt (message : string) : JS (option string) :=
  fun h => (Normal (prompt_reply h message), log (WindowPrompt message) h).
Definition window_alert (message : string) : JS unit :=
  fun h => (Normal tt, log (WindowAlert message) h).

(** [BigInt(s)] on a string. *)
Definition BigInt (s : string) : JS Z :=
  match BigInt_parse s with
  | Some n => ret n
  | None => throw (mkError "SyntaxError" ("Cannot convert " +:+ s +:+ " to a BigInt"))
  end.

(** [Error(message)]. *)
Definition Error (message : string) : JsError := mkError "Error" message.

Definition promptForTimestamp (message : string) : JS (option time) :=
  tsStr <- window_prompt message ;;
  match tsStr with
  | Some tsStr =>
      try_catch
        (n <- BigInt tsStr ;; ret (Some (Time_fromRaw n)))
        (fun _ => window_alert (tsStr +:+ " is not an integer") ;;; ret None)
  | None => ret None
  end.

(** A command as handed to [ctx.registerCommand]. *)
Record Command := mkCommand {
  id : string;
  name : string;
  callback : list JsValue -> JS unit;
  defaultHotkey : option string;
}.

(** [onActivate(_ctx) {}] *)
Definition onActivate {PluginContext : Type} (ctx : PluginContext) : PluginContext :=
  ctx.

Definition ToggleLeftSidebar_callback (_ : list JsValue) : JS unit :=
  visible <- sidebar_isVisible ;;
  if visible then sidebar_hide else sidebar_show.

(** [(tags) => !!tags.name?.startsWith('Ftrace Events Cpu ')] *)
Definition isFtraceTrack (tags : TrackTags) : bool :=
  match tags_name tags with
  | Some n => String.prefix "Ftrace Events Cpu " n
  | None => false
  end.

(** The first argument of the call, [undefined] when there is none. *)
Definition first_arg (args : list JsValue) : JsValue :=
  match args with
  | v :: _ => v
  | [] => JsUndefined
  end.

Definition PanToTimestamp_callback (args : list JsValue) : JS unit :=
  let tsRaw := first_arg args in
  if exists_ tsRaw then
    if negb (String.eqb (typeof tsRaw) "bigint") then
      text <- completed (ToString tsRaw) ;;
      throw (Error (text +:+ " is not a bigint"))
    else
      match tsRaw with
      | JsBigInt n => timeline_panToTimestamp (Time_fromRaw n)
      | _ => ret tt
      end
  else
    ts <- promptForTimestamp "Enter a timestamp" ;;
    match ts with
    | Some ts =>                             (* exists(ts) *)
        timeline_panToTimestamp (Time_fromRaw (time_as_bigint ts))
    | None => ret tt
    end.

(** The commands the host holds, in registration order. *)
Definition registerCommand (cmd : Command) (registry : list Command) : list Command :=
  registry ++ [cmd].

Definition openQuery_callback (query title : string) (_ : list JsValue) : JS unit :=
  tabs_openQuery query title.

Definition onTraceLoad (ctx : list Command) : list Command :=
  let ctx := registerCommand
    {| id := "dev.perfetto.CoreCommands#ToggleLeftSidebar";
       name := "Toggle left sidebar";
       callback := ToggleLeftSidebar_callback;
       defaultHotkey := Some "!Mod+B" |} ctx in
  let ctx := registerCommand
    {| id := "dev.perfetto.CoreCommands#RunQueryAllProcesses";
       name := "Run query: all processes";
       callback := openQuery_callback ALL_PROCESSES_QUERY "All Processes";
       defaultHotkey := None |} ctx in
  let ctx := registerCommand
    {| id := "dev.perfetto.CoreCommands#RunQueryCpuTimeByProcess";
       name := "Run query: CPU time by process";
       callback := openQuery_callback CPU_TIME_FOR_PROCESSES "CPU time by process";
       defaultHotkey := None |} ctx in
  let ctx := registerCommand
    {| id := "dev.perfetto.CoreCommands#RunQueryCyclesByStateByCpu";
       name := "Run query: cycles by p-state by CPU";
       callback := openQuery_callback CYCLES_PER_P_STATE_PER_CPU "Cycles by p-state by CPU";
       defaultHotkey := None |} ctx in
  let ctx := registerCommand
    {| id := "dev.perfetto.CoreCommands#RunQueryCyclesByCpuByProcess";
       name := "Run query: CPU Time by CPU by process";
       callback := openQuery_callback CPU_TIME_BY_CPU_BY_PROCESS "CPU Time by CPU by process";
       defaultHotkey := None |} ctx in
  let ctx := registerCommand
    {| id := "dev.perfetto.CoreCommands#RunQueryHeapGraphBytesPerType";
       name := "Run query: heap graph bytes per type";
       callback := openQuery_callback HEAP_GRAPH_BYTES_PER_TYPE "Heap graph bytes per type";
       defaultHotkey := None |} ctx in
  let ctx := registerCommand
    {| id := "dev.perfetto.CoreCommands#DebugSqlPerformance";
       name := "Debug SQL performance";
       callback := openQuery_callback SQL_STATS "Recent SQL queries";
       defaultHotkey := None |} ctx in
  let ctx := registerCommand
    {| id := "dev.perfetto.CoreCommands#PinFtraceTracks";
       name := "Pin ftrace tracks";
       callback := fun _ => timeline_pinTracksByPredicate isFtraceTrack;
       defaultHotkey := None |} ctx in
  let ctx := registerCommand
    {| id := "dev.perfetto.CoreCommands#UnpinAllTracks";
       name := "Unpin all tracks";
       callback := fun _ => timeline_unpinTracksByPredicate (fun _ => true);
       defaultHotkey := None |} ctx in
  registerCommand
    {| id := "dev.perfetto.CoreCommands#PanToTimestamp";
       name := "Pan To Timestamp";
       callback := PanToTimestamp_callback;
       defaultHotkey := None |} ctx.

(** The pan requests among a list of calls. *)
Definition is_pan (c : HostCall) : bool :=
  match c with
  | TimelinePanToTimestamp _ => true
  | _ => false
  end.

Definition is_alert (c : HostCall) : bool :=
  match c with
  | WindowAlert _ => true
  | _ => false
  end.

Definition is_prompt (c : HostCall) : bool :=
  match c with
  | WindowPrompt _ => true
  | _ => false
  end.

Definition has_defaultHotkey (c : Command) : bool :=
  match defaultHotkey c with
  | Some _ => true
  | None => false
  end.

End Host.

Definition pluginId : string := "dev.perfetto.CoreCommands".

End CoreCommands.

(** ** The debug-track plugin *)

Module DebugTrack.

Definition DEBUG_COUNTER_TRACK_URI : string := "perfetto.DebugCounter".

(** [selection.detailsPanelConfig]: which panel the selection asks for, and
    that panel's configuration. *)
Record DetailsPanelConfig (Config : Type) := mkDetailsPanelConfig {
  panel_kind : string;
  panel_config : Config;
}.
Arguments mkDetailsPanelConfig {Config} panel_kind panel_config.
Arguments panel_kind {Config} d.
Arguments panel_config {Config} d.

(** A selection, as far as the tab factory reads it: a tagged union on
    [kind]; the ['GENERIC_SLICE'] member carries [detailsPanelConfig], the
    other members carry some other tag. *)
Inductive Selection (Config : Type) :=
| GenericSliceSelection (detailsPanelConfig : DetailsPanelConfig Config)
| OtherSelection (kind : string) (other : String.eqb kind "GENERIC_SLICE" = false).
Arguments GenericSliceSelection {Config} detailsPanelConfig.
Arguments OtherSelection {Config} kind other.

Definition selection_kind {Config} (selection : Selection Config) : string :=
  match selection with
  | GenericSliceSelection _ => "GENERIC_SLICE"
  | OtherSelection kind _ => kind
  end.

Definition detailsPanelConfig {Config} (selection : Selection Config)
  : option (DetailsPanelConfig Config) :=
  match selection with
  | GenericSliceSelection d => Some d
  | OtherSelection _ _ => None
  end.

Section Plugin.

(** Imported by the plugin and defined elsewhere: the slice track's URI
    (frontend/debug_tracks), the static [kind] of [DebugSliceDetailsTab]
    (details_tab), the engine, the per-track context, the tab
    configuration, and [uuidv4] (base/uuid) drawing from a generator. *)
Variable DEBUG_SLICE_TRACK_URI : string.
Variable DebugSliceDetailsTab_kind : string.
Context {Engine TrackContext Config Rng : Type}.
Variable uuidv4 : Rng -> string * Rng.

(** The two track classes the plugin instantiates. *)
Inductive Track :=
| DebugTrackV2 (engine : Engine) (trackCtx : TrackContext)
| DebugCounterTrack (engine : Engine) (trackCtx : TrackContext).

(** [new DebugSliceDetailsTab({config, engine, uuid})] *)
Record DebugSliceDetailsTab := mkDebugSliceDetailsTab {
  tab_config : Config;
  tab_engine : Engine;
  tab_uuid : string;
}.

(** [new BottomTabToSCSAdapter({tabFactory})] *)
Record BottomTabToSCSAdapter := mkBottomTabToSCSAdapter {
  adapter_tabFactory : Selection Config -> Rng -> option DebugSliceDetailsTab * Rng;
}.

Inductive Registration :=
| RegisterTrack (uri : string) (track : TrackContext -> Track)
| RegisterDetailsPanel (panel : BottomTabToSCSAdapter).

(** Modelled from the spec: the plugin host's registry behind [ctx]
    (track registration is "URI -> renderer factory", "a mapping from
    string key to a tagged factory function"; details panels are kept as
    registered).  [registrations] lists the calls received, oldest
    first. *)
Record PluginContextTrace := mkContext {
  engine : Engine;
  tracks : gmap string (TrackContext -> Track);
  detailsPanels : list BottomTabToSCSAdapter;
  registrations : list Registration;
}.

Definition registerTrack (uri : string) (track : TrackContext -> Track)
  (ctx : PluginContextTrace) : PluginContextTrace :=
  mkContext (engine ctx) (<[uri := track]> (tracks ctx)) (detailsPanels ctx)
    (registrations ctx ++ [RegisterTrack uri track]).

Definition registerDetailsPanel (panel : BottomTabToSCSAdapter)
  (ctx : PluginContextTrace) : PluginContextTrace :=
  mkContext (engine ctx) (tracks ctx) (detailsPanels ctx ++ [panel])
    (registrations ctx ++ [RegisterDetailsPanel panel]).

(** The [tabFactory] closure of [onTraceLoad]; it captures [ctx.engine]. *)
Definition tabFactory (ctx_engine : Engine) (selection : Selection Config)
  : Rng -> option DebugSliceDetailsTab * Rng :=
  fun g =>
    match String.eqb (selection_kind selection) "GENERIC_SLICE",
          detailsPanelConfig selection with
    | true, Some d =>
        if String.eqb (panel_kind d) DebugSliceDetailsTab_kind then
          let config := panel_config d in
          let (uuid, g') := uuidv4 g in
          (Some (mkDebugSliceDetailsTab config ctx_engine uuid), g')
        else (None, g)
    | _, _ => (None, g)
    end.

(** [onActivate(_ctx): void {}] *)
Definition onActivate {PluginContext : Type} (ctx : PluginContext) : PluginContext :=
  ctx.

Definition onTraceLoad (ctx : PluginContextTrace) : PluginContextTrace :=
  let ctx1 := registerTrack DEBUG_SLICE_TRACK_URI
                (fun trackCtx => DebugTrackV2 (engine ctx) trackCtx) ctx in
  let ctx2 := registerDetailsPanel
                (mkBottomTabToSCSAdapter (tabFactory (engine ctx))) ctx1 in
  registerTrack DEBUG_COUNTER_TRACK_URI
    (fun trackCtx => DebugCounterTrack (engine ctx) trackCtx) ctx2.


End Plugin.

Definition pluginId : string := "perfetto.DebugSlices".

End DebugTrack.

(** ** JavaOomActivity *)

Module JavaOom.

(** [Integer.MAX_VALUE], 0x7fffffff. *)
Definition Integer_MAX_VALUE : Z := 2147483647.

Inductive Throwable :=
| OutOfMemoryError
| NegativeArraySizeException
| OtherThrowable (class_name : string).

Inductive Outcome (A : Type) :=
| Returned (a : A)
| Thrown (t : Throwable).
Arguments Returned {A} a.
Arguments Thrown {A} t.

(** The heap, as far as an array allocation depends on it: the number of
    bytes an allocation can still obtain. *)
Record Heap := mkHeap { heap_free : Z }.

(** A byte array is known by its length; its elements are zero. *)
Record ByteArray := mkByteArray { array_length : Z }.

Definition Code (A : Type) : Type := Heap -> Outcome A * Heap.

(** [new byte[n]] *)
Definition new_byte_array (n : Z) : Code ByteArray :=
  fun heap =>
    if (n <? 0)%Z then (Thrown NegativeArraySizeException, heap)
    else if (n <=? heap_free heap)%Z then
      (Returned (mkByteArray n), mkHeap (heap_free heap - n))
    else (Thrown OutOfMemoryError, heap).

Definition is_OutOfMemoryError (t : Throwable) : bool :=
  match t with
  | OutOfMemoryError => true
  | _ => false
  end.

(** [try { body } catch (C e) { handler }] for the throwable class that
    [catches] recognises; any other throwable goes on. *)
Definition try_catch {A} (body : Code A) (catches : Throwable -> bool)
  (handler : Throwable -> Code A) : Code A :=
  fun heap =>
    match body heap with
    | (Returned a, heap') => (Returned a, heap')
    | (Thrown t, heap') =>
        if catches t then handler t heap' else (Thrown t, heap')
    end.

(** The lambda handed to [new Thread(...)]: the allocation, then
    [return]; the catch block is empty. *)
Definition runnable : Code unit :=
  try_catch
    (fun heap =>
       match new_byte_array Integer_MAX_VALUE heap with
       | (Returned alloc, heap') => (Returned tt, heap')
       | (Thrown t, heap') => (Thrown t, heap')
       end)
    is_OutOfMemoryError
    (fun e heap => (Returned tt, heap)).

(** The process the activity lives in: its heap and the threads started
    so far, each by the code it runs. *)
Record Process := mkProcess {
  heap : Heap;
  started_threads : list (Code unit);
}.

(** [new Thread(r).start()]: the new thread will run [r]; the caller goes
    on at once. *)
Definition Thread_start (r : Code unit) (p : Process) : Outcome unit * Process :=
  (Returned tt, mkProcess (heap p) (started_threads p ++ [r])).

Section Activity.

(** [Bundle] and the framework's [Activity.onCreate] behind
    [super.onCreate(state)]. *)
Context {Bundle : Type}.
Variable Activity_onCreate : Bundle -> Process -> Outcome unit * Process.

Definition onCreate (state : Bundle) (p : Process) : Outcome unit * Process :=
  match Activity_onCreate state p with
  | (Returned _, p') => Thread_start runnable p'
  | (Thrown t, p') => (Thrown t, p')
  end.

End Activity.

End JavaOom.

(** ** QueryResultValidator *)

Module Validator.

(** Modelled from the spec: the scalar values of a QueryResultRow
    (section 3), which is not among the sources: an int64, a float64
    (known by its bit pattern) or a string. *)
Inductive Scalar :=
| IntValue (n : Z)
| FloatValue (bits : Z)
| StringValue (s : string).

Inductive ColumnType := Int64 | Float64 | StringType.

Inductive TrackKind := Slice | Counter.

(** Modelled from the spec: a raw row, "an ordered mapping from column
    name to scalar value"; the first binding of a name counts. *)
Definition Row : Type := list (string * Scalar).

Fixpoint column (name : string) (row : Row) : option Scalar :=
  match row with
  | [] => None
  | (c, v) :: rest => if String.eqb c name then Some v else column name rest
  end.

Definition in_int64 (n : Z) : bool :=
  ((-9223372036854775808 <=? n) && (n <=? 9223372036854775807))%Z.

(** Modelled from the spec: "column types coerce to the expected scalar
    kind (int64, float64, string)"; an integer also serves as a
    float64. *)
Definition coerces (v : Scalar) (t : ColumnType) : bool :=
  match t, v with
  | Int64, IntValue n => in_int64 n
  | Float64, FloatValue _ => true
  | Float64, IntValue _ => true
  | StringType, StringValue _ => true
  | _, _ => false
  end.

(** Modelled from the spec: the required columns per track kind
    (section 3), and the optional [depth] of a slice. *)
Definition required_columns (kind : TrackKind) : list (string * ColumnType) :=
  match kind with
  | Slice => [("ts", Int64); ("dur", Int64); ("name", StringType)]
  | Counter => [("ts", Int64); ("value", Float64)]
  end.

Definition optional_columns (kind : TrackKind) : list (string * ColumnType) :=
  match kind with
  | Slice => [("depth", Int64)]
  | Counter => []
  end.

(** Modelled from the spec: the row-level ValidationError of section 7. *)
Inductive RowError :=
| MissingColumn (name : string)
| WrongType (name : string)
| NegativeDuration.

Record ValidationError := mkValidationError {
  row_index : nat;
  row_error : RowError;
}.

Fixpoint check_required (columns : list (string * ColumnType)) (row : Row)
  : option RowError :=
  match columns with
  | [] => None
  | (name, t) :: rest =>
      match column name row with
      | None => Some (MissingColumn name)
      | Some v => if coerces v t then check_required rest row
                  else Some (WrongType name)
      end
  end.

Fixpoint check_optional (columns : list (string * ColumnType)) (row : Row)
  : option RowError :=
  match columns with
  | [] => None
  | (name, t) :: rest =>
      match column name row with
      | None => check_optional rest row
      | Some v => if coerces v t then check_optional rest row
                  else Some (WrongType name)
      end
  end.

(** The columns of the row are those of the track kind, with their
    types. *)
Definition schema_error (kind : TrackKind) (row : Row) : option RowError :=
  match check_required (required_columns kind) row with
  | Some e => Some e
  | None => check_optional (optional_columns kind) row
  end.

(** The duration of a row; 0 where it has none. *)
Definition dur (row : Row) : Z :=
  match column "dur" row with
  | Some (IntValue n) => n
  | _ => 0
  end.

(** Modelled from the spec: the checks of section 4.1 on one row:
    presence of the required columns, their types, and for a slice track
    [dur >= 0]. *)
Definition check_row (kind : TrackKind) (row : Row) : option RowError :=
  match schema_error kind row with
  | Some e => Some e
  | None =>
      match kind with
      | Slice => if (dur row <? 0)%Z then Some NegativeDuration else None
      | Counter => None
      end
  end.

(** The policy flag of the call: skip the offending rows and log them
    (the default), or fail the whole window. *)
Inductive Policy := SkipAndLog | FailWindow.

Definition default_policy : Policy := SkipAndLog.

Inductive Result :=
| Validated (rows : list Row) (flagged : list ValidationError)
| Rejected (errors : list ValidationError).

(** The rows that pass and the errors of those that do not, each with the
    index of its row in the input. *)
Fixpoint scan (kind : TrackKind) (index : nat) (rows : list Row)
  : list Row * list ValidationError :=
  match rows with
  | [] => ([], [])
  | row :: rest =>
      let (kept, errors) := scan kind (S index) rest in
      match check_row kind row with
      | None => (row :: kept, errors)
      | Some e => (kept, mkValidationError index e :: errors)
      end
  end.

(** Modelled from the spec: [validate(rows, kind)] of section 4.1 with
    its policy flag: invalid rows are "rejected individually with the
    violating row index recorded"; under the default policy they are
    "excluded from the rendered window", under the other the whole window
    fails.  The checks are those that section 4.1 describes and section 7
    lists as row-level errors (missing column, wrong type, negative
    duration); the remark of section 4.3 on overlapping slices names no
    check of section 4.1 and is not modelled. *)
Definition validate (rows : list Row) (kind : TrackKind) (policy : Policy) : Result :=
  let (kept, errors) := scan kind 0 rows in
  match policy, errors with
  | FailWindow, _ :: _ => Rejected errors
  | _, _ => Validated kept errors
  end.



End Validator.

(** ** TrackDataCache *)

Module TrackDataCache.

(** Modelled from the spec: the cache key of section 4.2, "(query text
    hash, track URI)". *)
Definition Key : Type := N * string.

Section Cache.

(** A CachedWindow; its contents play no part in the request protocol. *)
Context {Window : Type}.

(** Modelled from the spec: the TrackDataCache of sections 4.2 and 5,
    which is not among the sources, as far as fetches and their
    completions go.  Every fetch gets the next request number; per key
    the cache remembers the latest request in flight and the window last
    committed. *)
Record Cache := mkCache {
  next_request : nat;
  in_flight : gmap Key nat;
  entries : gmap Key Window;
}.

Definition empty_cache : Cache := mkCache 0 ∅ ∅.

(** A fetch is issued for [key]: it becomes the latest request in flight
    for that key. *)
Definition issue (key : Key) (c : Cache) : nat * Cache :=
  (next_request c,
   mkCache (S (next_request c)) (<[key := next_request c]> (in_flight c)) (entries c)).

(** Modelled from the spec: "completion must check its own request is
    still the latest in-flight request for that key before committing,
    otherwise discard"; a commit replaces the entry. *)
Definition complete (key : Key) (request : nat) (w : Window) (c : Cache) : Cache :=
  if decide (in_flight c !! key = Some request)
  then mkCache (next_request c) (delete key (in_flight c)) (<[key := w]> (entries c))
  else c.

(** Modelled from the spec: a QueryExecutionError "aborts the current
    fetch, leaves the previous CachedWindow (if any) in place". *)
Definition fail (key : Key) (request : nat) (c : Cache) : Cache :=
  if decide (in_flight c !! key = Some request)
  then mkCache (next_request c) (delete key (in_flight c)) (entries c)
  else c.

(** Modelled from the spec: when a track is destroyed "any in-flight
    fetch for its cache key is marked irrelevant". *)
Definition destroy (key : Key) (c : Cache) : Cache :=
  mkCache (next_request c) (delete key (in_flight c)) (entries c).

(** What can happen to the cache between two moments. *)
Inductive Event :=
| Issue (key : Key)
| Complete (key : Key) (request : nat) (w : Window)
| Fail (key : Key) (request : nat)
| Destroy (key : Key).

Definition step (e : Event) (c : Cache) : Cache :=
  match e with
  | Issue key => snd (issue key c)
  | Complete key request w => complete key request w c
  | Fail key request => fail key request c
  | Destroy key => destroy key c
  end.

Fixpoint run (events : list Event) (c : Cache) : Cache :=
  match events with
  | [] => c
  | e :: rest => run rest (step e c)
  end.

(** Request [request] was issued before now and is not the latest in
    flight for [key]. *)
Definition superseded (key : Key) (request : nat) (c : Cache) : Prop :=
  (request < next_request c)%nat ∧ in_flight c !! key ≠ Some request.

End Cache.

End TrackDataCache.

(** * Properties *)

(** ** The conversion from strings to BigInt, on examples *)

Example StringToBigInt_decimal : Js.StringToBigInt " 1234 " = Some 1234%Z.
Proof. reflexivity. Qed.
Example StringToBigInt_negative : Js.StringToBigInt "-42" = Some (-42)%Z.
Proof. reflexivity. Qed.
Example StringToBigInt_hex : Js.StringToBigInt "0x1F" = Some 31%Z.
Proof. reflexivity. Qed.
Example StringToBigInt_empty : Js.StringToBigInt "" = Some 0%Z.
Proof. reflexivity. Qed.
Example StringToBigInt_fraction : Js.StringToBigInt "1.5" = None.
Proof. reflexivity. Qed.
Example StringToBigInt_word : Js.StringToBigInt "abc" = None.
Proof. reflexivity. Qed.
Example StringToBigInt_signed_hex : Js.StringToBigInt "-0x1" = None.
Proof. reflexivity. Qed.
Example bigint_to_string_negative : Js.bigint_to_string (-15) = "-15".
Proof. reflexivity. Qed.

(** ** CoreCommands *)

Module CoreCommandsFacts.
Import Js CoreCommands.

Section Facts.

Context {time : Type}.
Variable Time_fromRaw : Z -> time.
Variable BigInt_parse : string -> option Z.
Variable time_as_bigint : time -> Z.

Local Abbreviation promptForTimestamp :=
  (CoreCommands.promptForTimestamp Time_fromRaw BigInt_parse).
Local Abbreviation PanToTimestamp_callback :=
  (CoreCommands.PanToTimestamp_callback Time_fromRaw BigInt_parse time_as_bigint).
Local Abbreviation onTraceLoad :=
  (CoreCommands.onTraceLoad Time_fromRaw BigInt_parse time_as_bigint).
Local Abbreviation Host := (@CoreCommands.Host time).

(** Logging touches neither the sidebar nor the user's answers. *)
Lemma log_calls (c : HostCall) (h : Host) : calls (log c h) = calls h ++ [c].
Proof. reflexivity. Qed.

Lemma filter_pan_log (c : HostCall) (h : Host) :
  is_pan c = false ->
  List.filter is_pan (calls (log c h)) = List.filter is_pan (calls h).
Proof.
  intros Hc. rewrite log_calls, List.filter_app. simpl. rewrite Hc.
  apply app_nil_r.
Qed.

(** [typeof v === 'bigint'] exactly for the BigInt values. *)
Lemma typeof_bigint (v : JsValue) :
  String.eqb (typeof v) "bigint" = true <-> exists n, v = JsBigInt n.
Proof.
  split.
  - destruct v as [| | b | t | n | s | d | callable ts]; simpl;
      try discriminate; eauto.
    destruct callable; discriminate.
  - intros [n ->]. reflexivity.
Qed.

(** Without a defined first argument, the command is what the prompt
    makes of it. *)
Lemma callback_without_argument (args : list JsValue) (h : Host) :
  exists_ (first_arg args) = false ->
  PanToTimestamp_callback args h =
    match promptForTimestamp "Enter a timestamp" h with
    | (Normal (Some ts), h') =>
        (Normal tt, log (TimelinePanToTimestamp (Time_fromRaw (time_as_bigint ts))) h')
    | (Normal None, h') => (Normal tt, h')
    | (Throw e, h') => (Throw e, h')
    end.
Proof.
  intros Hargs. unfold CoreCommands.PanToTimestamp_callback. rewrite Hargs.
  unfold bind.
  destruct (promptForTimestamp "Enter a timestamp" h) as [[[ts|]|e] h'];
    reflexivity.
Qed.

(** C1: when the user answers the prompt with a string that [BigInt]
    rejects, [promptForTimestamp] alerts "<input> is not an integer" and
    returns undefined; the 'Pan To Timestamp' command, run without an
    argument, ends after that prompt and that alert: no pan is
    requested. *)
Theorem pan_to_timestamp_rejects_non_integer (h : Host) (message tsStr : string) :
  prompt_reply h message = Some tsStr ->
  BigInt_parse tsStr = None ->
  let h' := log (WindowAlert (tsStr +:+ " is not an integer"))
              (log (WindowPrompt message) h) in
  CoreCommands.promptForTimestamp Time_fromRaw BigInt_parse message h
    = (Normal None, h')
  /\ List.filter is_alert (calls h')
       = List.filter is_alert (calls h)
           ++ [WindowAlert (tsStr +:+ " is not an integer")]
  /\ List.filter is_pan (calls h') = List.filter is_pan (calls h)
  /\ (message = "Enter a timestamp" ->
      forall args, exists_ (first_arg args) = false ->
        PanToTimestamp_callback args h = (Normal tt, h')).
Proof.
  intros Hreply Hparse h'.
  assert (Hprompt : CoreCommands.promptForTimestamp Time_fromRaw BigInt_parse message h
                    = (Normal None, h')).
  { unfold CoreCommands.promptForTimestamp, bind, window_prompt, try_catch, BigInt.
    rewrite Hreply, Hparse. reflexivity. }
  split; [exact Hprompt|]. subst h'. split; [|split].
  - rewrite !log_calls, !List.filter_app. simpl. now rewrite app_nil_r.
  - now rewrite !filter_pan_log.
  - intros -> args Hargs. rewrite callback_without_argument by exact Hargs.
    rewrite Hprompt. reflexivity.
Qed.

(** C10: when the user cancels the prompt ([window.prompt] returns null),
    [promptForTimestamp] returns undefined having shown no alert, and the
    command, run without an argument, ends after the prompt alone: no
    alert, no pan. *)
Theorem pan_to_timestamp_cancel_is_silent (h : Host) (message : string) :
  prompt_reply h message = None ->
  CoreCommands.promptForTimestamp Time_fromRaw BigInt_parse message h
    = (Normal None, log (WindowPrompt message) h)
  /\ List.filter is_alert (calls (log (WindowPrompt message) h))
       = List.filter is_alert (calls h)
  /\ (message = "Enter a timestamp" ->
      forall args, exists_ (first_arg args) = false ->
        PanToTimestamp_callback args h = (Normal tt, log (WindowPrompt message) h)
        /\ List.filter is_pan (calls (log (WindowPrompt message) h))
             = List.filter is_pan (calls h)).
Proof.
  intros Hreply.
  assert (Hprompt : CoreCommands.promptForTimestamp Time_fromRaw BigInt_parse message h
                    = (Normal None, log (WindowPrompt message) h)).
  { unfold CoreCommands.promptForTimestamp, bind, window_prompt.
    rewrite Hreply. reflexivity. }
  split; [exact Hprompt|]. split.
  - rewrite log_calls, List.filter_app. simpl. apply app_nil_r.
  - intros -> args Hargs. split.
    + rewrite callback_without_argument by exact Hargs. now rewrite Hprompt.
    + now rewrite filter_pan_log.
Qed.

(** The command registered as 'Pan To Timestamp' runs
    [PanToTimestamp_callback]. *)
Lemma pan_to_timestamp_command :
  callback <$> List.find (fun c => String.eqb (name c) "Pan To Timestamp")
                 (onTraceLoad [])
  = Some PanToTimestamp_callback.
Proof. reflexivity. Qed.

(** What the 'Pan To Timestamp' callback does with a defined first
    argument.  One that is not a bigint makes it throw and leaves the
    host untouched (no pan, no prompt): it throws
    [Error("<text> is not a bigint")] when the argument converts to the
    string [text], and whatever the conversion throws when it does not.
    A bigint argument is panned to, without a prompt. *)
Theorem pan_to_timestamp_argument (h : Host) (args : list JsValue) :
  exists_ (first_arg args) = true ->
  (forall n, first_arg args = JsBigInt n ->
     PanToTimestamp_callback args h
       = (Normal tt, log (TimelinePanToTimestamp (Time_fromRaw n)) h))
  /\ (String.eqb (typeof (first_arg args)) "bigint" = false ->
      (forall text, ToString (first_arg args) = Normal text ->
         PanToTimestamp_callback args h
           = (Throw (Error (text +:+ " is not a bigint")), h))
      /\ (forall e, ToString (first_arg args) = Throw e ->
         PanToTimestamp_callback args h = (Throw e, h))).
Proof.
  intros Hdefined. unfold CoreCommands.PanToTimestamp_callback.
  rewrite Hdefined. split.
  - intros n ->. reflexivity.
  - intros Htype. rewrite Htype. simpl. unfold bind, completed, throw.
    split.
    + intros text ->. reflexivity.
    + intros e ->. reflexivity.
Qed.

(** C8: the callback is to throw [Error("<value> is not a bigint")] for a
    defined argument that is not a bigint.  Called with a Symbol, which
    is defined and whose [typeof] is not 'bigint', it throws a TypeError
    instead: the template literal that builds the message cannot convert
    the Symbol to a string, so [Error] is never reached and the thrown
    error says nothing of a bigint.  The host is left untouched: no pan,
    no prompt. *)
Theorem pan_to_timestamp_symbol_throws_type_error (h : Host)
  (description : string) (rest : list JsValue) :
  exists_ (first_arg (JsSymbol description :: rest)) = true
  /\ typeof (first_arg (JsSymbol description :: rest)) = "symbol"
  /\ PanToTimestamp_callback (JsSymbol description :: rest) h
     = (Throw (mkError "TypeError" "Cannot convert a Symbol value to a string"), h)
  /\ forall text,
       mkError "TypeError" "Cannot convert a Symbol value to a string"
       <> Error (text +:+ " is not a bigint").
Proof.
  split; [reflexivity|]. split; [reflexivity|]. split; [reflexivity|].
  intros text. discriminate.
Qed.

(** Registration only adds to the commands the host already holds. *)
Lemma onTraceLoad_appends (ctx : list Command) :
  onTraceLoad ctx = ctx ++ onTraceLoad [].
Proof.
  unfold CoreCommands.onTraceLoad, registerCommand. cbv zeta.
  rewrite app_nil_l. now rewrite <- !app_assoc.
Qed.

(** C5: the callback registered as 'Toggle left sidebar' asks
    [isVisible()], then calls [hide()] if the sidebar was visible and
    [show()] if it was not; it returns normally and the sidebar's
    visibility afterwards is the opposite of what it was. *)
Theorem toggle_left_sidebar_inverts :
  exists cmd,
    List.find (fun c => String.eqb (name c) "Toggle left sidebar") (onTraceLoad [])
      = Some cmd
    /\ callback cmd = ToggleLeftSidebar_callback
    /\ forall (h : Host) (args : list JsValue),
         let h' := set_sidebar_visible (negb (sidebar_visible h))
                     (log (if sidebar_visible h then SidebarHide else SidebarShow)
                        (log SidebarIsVisible h)) in
         callback cmd args h = (Normal tt, h')
         /\ sidebar_visible h' = negb (sidebar_visible h)
         /\ calls h' = calls h ++
              [SidebarIsVisible; if sidebar_visible h then SidebarHide else SidebarShow].
Proof.
  eexists. split; [reflexivity|]. split; [reflexivity|].
  intros h args h'. subst h'. simpl.
  unfold ToggleLeftSidebar_callback, bind, sidebar_isVisible, sidebar_hide,
    sidebar_show.
  destruct h as [visible reply cs]. simpl.
  destruct visible; simpl; rewrite <- app_assoc; auto.
Qed.

(** C9 (as amended): [onTraceLoad] registers ten commands, after those
    already there; their ids are pairwise distinct and each begins with
    'dev.perfetto.CoreCommands#'; each has an id and a name (and, being a
    [Command], a callback); ToggleLeftSidebar alone has a default
    hotkey. *)
Theorem core_commands_registered :
  (forall ctx, onTraceLoad ctx = ctx ++ onTraceLoad [])
  /\ length (onTraceLoad []) = 10%nat
  /\ NoDup (map id (onTraceLoad []))
  /\ Forall (fun c => String.prefix "dev.perfetto.CoreCommands#" (id c) = true
                      /\ id c <> "" /\ name c <> "")
       (onTraceLoad [])
  /\ map id (List.filter has_defaultHotkey (onTraceLoad []))
       = ["dev.perfetto.CoreCommands#ToggleLeftSidebar"].
Proof.
  split; [exact onTraceLoad_appends|].
  split; [reflexivity|]. split.
  - apply (bool_decide_unpack _). vm_compute. exact I.
  - split; [|reflexivity].
    repeat constructor; discriminate.
Qed.

End Facts.

(** The last character of a concatenation is that of its second part,
    when that part is not empty. *)
Lemma last_char_append (a : string) (c : ascii) (b : string) :
  last_char (a +:+ String c b) = last_char (String c b).
Proof.
  induction a as [|x a IH]; [reflexivity|].
  change (String x a +:+ String c b) with (String x (a +:+ String c b)).
  destruct (a +:+ String c b) eqn:E.
  - destruct a; discriminate E.
  - rewrite <- IH. reflexivity.
Qed.

Lemma pan_to_timestamp_rejects_non_integer_witness :
  CoreCommands.PanToTimestamp_callback (fun n : Z => n) StringToBigInt (fun ts : Z => ts) []
    (mkHost true (fun _ => Some "1.5") [])
  = (Normal tt,
     mkHost true (fun _ => Some "1.5")
       [WindowPrompt "Enter a timestamp"; WindowAlert "1.5 is not an integer"]).
Proof.
  apply (pan_to_timestamp_rejects_non_integer (fun n : Z => n) StringToBigInt (fun ts : Z => ts)
           (mkHost true (fun _ => Some "1.5") []) "Enter a timestamp" "1.5");
    reflexivity.
Defined.

Lemma pan_to_timestamp_cancel_is_silent_witness :
  CoreCommands.PanToTimestamp_callback (fun n : Z => n) StringToBigInt (fun ts : Z => ts) [JsUndefined]
    (mkHost false (fun _ => None) [])
  = (Normal tt, mkHost false (fun _ => None) [WindowPrompt "Enter a timestamp"]).
Proof.
  apply (pan_to_timestamp_cancel_is_silent (fun n : Z => n) StringToBigInt (fun ts : Z => ts)
           (mkHost false (fun _ => None) []) "Enter a timestamp");
    reflexivity.
Defined.

Lemma pan_to_timestamp_argument_witness :
  CoreCommands.PanToTimestamp_callback (fun n : Z => n) StringToBigInt (fun ts : Z => ts) [JsString "12"]
    (mkHost true (fun _ => None) [])
  = (Throw (Error "12 is not a bigint"), mkHost true (fun _ => None) [])
  /\ CoreCommands.PanToTimestamp_callback (fun n : Z => n) StringToBigInt (fun ts : Z => ts) [JsBigInt 12]
       (mkHost true (fun _ => None) [])
     = (Normal tt, mkHost true (fun _ => None) [TimelinePanToTimestamp 12%Z]).
Proof.
  split.
  - exact (proj1 (proj2 (pan_to_timestamp_argument (fun n : Z => n) StringToBigInt (fun ts : Z => ts)
                           (mkHost true (fun _ => None) []) [JsString "12"] eq_refl)
                    eq_refl) "12" eq_refl).
  - exact (proj1 (pan_to_timestamp_argument (fun n : Z => n) StringToBigInt (fun ts : Z => ts)
                    (mkHost true (fun _ => None) []) [JsBigInt 12] eq_refl)
             12%Z eq_refl).
Defined.

(** Not every defined argument that is not a bigint gets an error that
    says so: called with a Symbol, the callback throws the TypeError of
    the string conversion, whose message does not end in
    " is not a bigint". *)
Lemma pan_to_timestamp_symbol_argument :
  ~ (forall (h : @Host Z) (args : list JsValue),
       exists_ (first_arg args) = true ->
       String.eqb (typeof (first_arg args)) "bigint" = false ->
       exists e text,
         CoreCommands.PanToTimestamp_callback (fun n : Z => n) StringToBigInt (fun ts : Z => ts) args h
           = (Throw e, h)
         /\ error_message e = text +:+ " is not a bigint").
Proof.
  intros H.
  destruct (H (mkHost true (fun _ => None) []) [JsSymbol "ts"] eq_refl eq_refl)
    as (e & text & Hthrown & Hmessage).
  vm_compute in Hthrown. injection Hthrown as <-.
  apply (f_equal last_char) in Hmessage.
  change (" is not a bigint") with (String " " "is not a bigint") in Hmessage.
  rewrite last_char_append in Hmessage. discriminate Hmessage.
Qed.

(** C9 as stated fails on the count: the plugin registers ten commands,
    not nine. *)
Lemma core_commands_are_not_nine :
  ~ (length (CoreCommands.onTraceLoad (fun n : Z => n) StringToBigInt (fun ts : Z => ts) []) = 9%nat
     /\ NoDup (map id (CoreCommands.onTraceLoad (fun n : Z => n) StringToBigInt (fun ts : Z => ts) []))
     /\ Forall (fun c => String.prefix "dev.perfetto.CoreCommands#" (id c) = true)
          (CoreCommands.onTraceLoad (fun n : Z => n) StringToBigInt (fun ts : Z => ts) [])
     /\ map id (List.filter has_defaultHotkey
                  (CoreCommands.onTraceLoad (fun n : Z => n) StringToBigInt (fun ts : Z => ts) []))
          = ["dev.perfetto.CoreCommands#ToggleLeftSidebar"]).
Proof.
  intros [Hnine _]. vm_compute in Hnine. discriminate Hnine.
Qed.

End CoreCommandsFacts.

(** ** The debug-track plugin *)

Module DebugTrackFacts.
Import DebugTrack.

Section Facts.

Variable DEBUG_SLICE_TRACK_URI : string.
Variable DebugSliceDetailsTab_kind : string.
Context {Engine TrackContext Config Rng : Type}.
Variable uuidv4 : Rng -> string * Rng.

Local Abbreviation tabFactory :=
  (DebugTrack.tabFactory (Engine:=Engine) (Config:=Config)
     DebugSliceDetailsTab_kind uuidv4).
Local Abbreviation onTraceLoad :=
  (DebugTrack.onTraceLoad (TrackContext:=TrackContext) (Config:=Config)
     DEBUG_SLICE_TRACK_URI DebugSliceDetailsTab_kind uuidv4).

(** The tag ['GENERIC_SLICE'] belongs to the member that carries a
    details-panel configuration, and to no other. *)
Lemma selection_kind_generic (selection : Selection Config) :
  selection_kind selection = "GENERIC_SLICE"
  <-> exists d, selection = GenericSliceSelection d.
Proof.
  split.
  - destruct selection as [d | kind other]; simpl; [eauto|].
    intros ->. discriminate other.
  - intros [d ->]. reflexivity.
Qed.

(** C4: the tab factory produces a tab exactly for a selection of kind
    'GENERIC_SLICE' whose [detailsPanelConfig.kind] is
    [DebugSliceDetailsTab.kind]; the tab then carries that selection's
    configuration, the engine of the context and a fresh uuid.  For every
    other selection it returns undefined, a value and not an exception,
    and draws no uuid. *)
Theorem tab_factory_resolves (ctx_engine : Engine) (selection : Selection Config)
  (g : Rng) :
  (is_Some (fst (tabFactory ctx_engine selection g))
   <-> selection_kind selection = "GENERIC_SLICE"
       /\ exists d, detailsPanelConfig selection = Some d
                    /\ panel_kind d = DebugSliceDetailsTab_kind)
  /\ (forall tab, fst (tabFactory ctx_engine selection g) = Some tab ->
        exists d, detailsPanelConfig selection = Some d
                  /\ tab = mkDebugSliceDetailsTab (panel_config d) ctx_engine
                             (fst (uuidv4 g))
                  /\ snd (tabFactory ctx_engine selection g) = snd (uuidv4 g))
  /\ (fst (tabFactory ctx_engine selection g) = None ->
        tabFactory ctx_engine selection g = (None, g)).
Proof.
  unfold DebugTrack.tabFactory.
  destruct selection as [d | kind other]; simpl.
  - destruct (String.eqb_spec (panel_kind d) DebugSliceDetailsTab_kind) as [Hk|Hk].
    + destruct (uuidv4 g) as [uuid g'] eqn:Hu. simpl. split; [|split].
      * split; [eauto|]. intros _. eauto.
      * intros tab [= <-]. eauto.
      * discriminate.
    + simpl. split; [|split].
      * split; [intros [tab Htab]; discriminate Htab|].
        intros [_ (d' & [= <-] & Hkind)]. contradiction.
      * discriminate.
      * reflexivity.
  - rewrite other. simpl. split; [|split].
    + split; [intros [tab Htab]; discriminate Htab|].
      intros [-> _]. discriminate other.
    + discriminate.
    + reflexivity.
Qed.


End Facts.


End DebugTrackFacts.

(** ** JavaOomActivity *)

Module JavaOomFacts.
Import JavaOom.

(** C6: [onCreate] calls the framework's [onCreate] and starts one
    thread; it does not allocate, and its outcome is that of the
    framework's method: normal whenever that one returns.  The thread's
    code asks for [Integer.MAX_VALUE] bytes; where the heap cannot give
    them the allocation throws [OutOfMemoryError], which the thread's own
    catch block swallows: the thread's code returns normally on every
    heap. *)
Theorem oom_is_caught_in_thread {Bundle : Type}
  (Activity_onCreate : Bundle -> Process -> Outcome unit * Process) :
  Integer_MAX_VALUE = (2 ^ 31 - 1)%Z
  /\ (forall h : Heap,
        new_byte_array Integer_MAX_VALUE h
          = if (heap_free h <? Integer_MAX_VALUE)%Z
            then (Thrown OutOfMemoryError, h)
            else (Returned (mkByteArray Integer_MAX_VALUE),
                  mkHeap (heap_free h - Integer_MAX_VALUE)))
  /\ (forall h : Heap,
        runnable h
          = (Returned tt,
             if (heap_free h <? Integer_MAX_VALUE)%Z then h
             else mkHeap (heap_free h - Integer_MAX_VALUE)))
  /\ (forall (state : Bundle) (p : Process),
        onCreate Activity_onCreate state p
          = match Activity_onCreate state p with
            | (Returned _, p') =>
                (Returned tt, mkProcess (heap p') (started_threads p' ++ [runnable]))
            | (Thrown t, p') => (Thrown t, p')
            end).
Proof.
  split; [reflexivity|].
  assert (Halloc : forall h : Heap,
            new_byte_array Integer_MAX_VALUE h
            = if (heap_free h <? Integer_MAX_VALUE)%Z
              then (Thrown OutOfMemoryError, h)
              else (Returned (mkByteArray Integer_MAX_VALUE),
                    mkHeap (heap_free h - Integer_MAX_VALUE))).
  { intros h. unfold new_byte_array.
    change (Integer_MAX_VALUE <? 0)%Z with false. cbv iota.
    destruct (Z.leb_spec Integer_MAX_VALUE (heap_free h));
      destruct (Z.ltb_spec (heap_free h) Integer_MAX_VALUE);
      (reflexivity || lia). }
  split; [exact Halloc|]. split.
  - intros h. unfold runnable, try_catch. rewrite Halloc.
    destruct (heap_free h <? Integer_MAX_VALUE)%Z; reflexivity.
  - intros state p. unfold onCreate, Thread_start.
    destruct (Activity_onCreate state p) as [[[]|t] p']; reflexivity.
Qed.

End JavaOomFacts.

(** ** QueryResultValidator *)

Module ValidatorFacts.
Import Validator.







(** Three rows, the second of negative duration. *)
Example validate_three_rows :
  validate
    [[("ts", IntValue 10); ("dur", IntValue 5); ("name", StringValue "a")];
     [("ts", IntValue 20); ("dur", IntValue (-1)); ("name", StringValue "b")];
     [("ts", IntValue 30); ("dur", IntValue 0); ("name", StringValue "c")]]
    Slice default_policy
  = Validated
      [[("ts", IntValue 10); ("dur", IntValue 5); ("name", StringValue "a")];
       [("ts", IntValue 30); ("dur", IntValue 0); ("name", StringValue "c")]]
      [mkValidationError 1 NegativeDuration].
Proof. reflexivity. Qed.

(** A malformed row ahead of a negative one does not shift the index the
    negative one is flagged at. *)
Example validate_index_after_malformed_row :
  validate
    [[("ts", IntValue 10); ("dur", IntValue 5)];
     [("ts", IntValue 20); ("dur", IntValue (-7)); ("name", StringValue "b")];
     [("ts", IntValue 30); ("dur", IntValue 0); ("name", StringValue "c")]]
    Slice default_policy
  = Validated
      [[("ts", IntValue 30); ("dur", IntValue 0); ("name", StringValue "c")]]
      [mkValidationError 0 (MissingColumn "name");
       mkValidationError 1 NegativeDuration].
Proof. reflexivity. Qed.

(** A row that lacks a required column is excluded as well, whatever its
    duration. *)
Example validate_missing_column :
  validate [[("ts", IntValue 10); ("dur", IntValue 5)]] Slice default_policy
  = Validated [] [mkValidationError 0 (MissingColumn "name")].
Proof. reflexivity. Qed.

(** Under the other policy one bad row fails the window. *)
Example validate_fail_window :
  validate [[("ts", IntValue 20); ("dur", IntValue (-1)); ("name", StringValue "b")]]
    Slice FailWindow
  = Rejected [mkValidationError 0 NegativeDuration].
Proof. reflexivity. Qed.

End ValidatorFacts.

(** ** TrackDataCache *)

Module TrackDataCacheFacts.
Import TrackDataCache.

Section Facts.

Context {Window : Type}.

Local Abbreviation Cache := (@TrackDataCache.Cache Window).
Local Abbreviation Event := (@TrackDataCache.Event Window).

(** Request numbers are never given twice: the counter only grows. *)
Lemma step_next_request (e : Event) (c : Cache) :
  (next_request c <= next_request (step e c))%nat.
Proof.
  destruct e as [key | key request w | key request | key]; simpl;
    unfold complete, fail; try case_decide; simpl; lia.
Qed.

Lemma run_next_request (events : list Event) (c : Cache) :
  (next_request c <= next_request (run events c))%nat.
Proof.
  revert c. induction events as [|e events IH]; intros c; simpl; [lia|].
  etransitivity; [apply (step_next_request e)|apply IH].
Qed.

(** Once superseded, a request stays so, whatever happens next. *)
Lemma superseded_step (key : Key) (request : nat) (e : Event) (c : Cache) :
  superseded key request c -> superseded key request (step e c).
Proof.
  intros [Hold Hlatest]. split;
    [pose proof (step_next_request e c); lia|].
  destruct e as [key' | key' request' w | key' request' | key']; simpl;
    unfold complete, fail; try case_decide; simpl; try assumption;
    destruct (decide (key' = key)) as [->|Hne];
    rewrite ?lookup_insert_eq, ?lookup_delete_eq,
      ?lookup_insert_ne, ?lookup_delete_ne by assumption;
    try assumption; try discriminate.
  intros [= Hsame]. lia.
Qed.

Lemma superseded_run (key : Key) (request : nat) (events : list Event) (c : Cache) :
  superseded key request c -> superseded key request (run events c).
Proof.
  revert c. induction events as [|e events IH]; intros c H; simpl; [assumption|].
  apply IH, superseded_step, H.
Qed.

(** The completion of a superseded request changes nothing. *)
Lemma complete_superseded (key : Key) (request : nat) (w : Window) (c : Cache) :
  superseded key request c -> complete key request w c = c.
Proof.
  intros [_ Hlatest]. unfold complete. now rewrite decide_False.
Qed.

(** A newer fetch for the same key supersedes every earlier request. *)
Lemma issue_supersedes (key : Key) (request : nat) (c : Cache) :
  (request < next_request c)%nat -> superseded key request (snd (issue key c)).
Proof.
  intros Hold. split; simpl; [lia|].
  rewrite lookup_insert_eq. intros [= Hsame]. lia.
Qed.

(** C2: fetch A is issued for a key, then fetch B for the same key; B's
    completion finds B the latest request in flight and is committed.
    Whatever else happens to the cache in between and afterwards, A's
    completion, when it arrives, is discarded: it leaves the cache as it
    is, so the entry of the key is not overwritten; arriving right after
    B's commit, it leaves B's window in the cache. *)
Theorem late_completion_is_discarded (c0 : Cache) (key : Key) (wA wB : Window)
  (before_B before_commit after_commit : list Event) :
  let a := fst (issue key c0) in
  let c1 := run before_B (snd (issue key c0)) in
  let b := fst (issue key c1) in
  let c2 := run before_commit (snd (issue key c1)) in
  in_flight c2 !! key = Some b ->
  let c3 := complete key b wB c2 in
  let c4 := run after_commit c3 in
  entries c3 !! key = Some wB
  /\ complete key a wA c3 = c3
  /\ entries (complete key a wA c3) !! key = Some wB
  /\ complete key a wA c4 = c4
  /\ entries (complete key a wA c4) !! key = entries c4 !! key.
Proof.
  intros a c1 b c2 Hlatest c3 c4.
  assert (Hold : (a < next_request c1)%nat).
  { subst a c1. pose proof (run_next_request before_B (snd (issue key c0))) as H.
    simpl in *. lia. }
  assert (H3 : superseded key a c3).
  { subst c3 c2. apply (superseded_step key a (Complete key b wB)).
    apply superseded_run, issue_supersedes, Hold. }
  assert (Hcommit : entries c3 !! key = Some wB).
  { subst c3. unfold complete. rewrite decide_True by assumption. simpl.
    apply lookup_insert_eq. }
  assert (H4 : superseded key a c4) by (subst c4; apply superseded_run, H3).
  rewrite !complete_superseded by assumption. auto.
Qed.

End Facts.

Lemma late_completion_is_discarded_witness :
  let key : Key := (1%N, "perfetto.DebugSlices") in
  let c3 := complete key 1 "window of B"
              (snd (issue key (snd (issue key empty_cache)))) in
  entries (complete key 0 "window of A" c3) !! key = Some "window of B".
Proof.
  intros key c3.
  apply (late_completion_is_discarded empty_cache key "window of A" "window of B"
           [] [] []).
  reflexivity.
Defined.

End TrackDataCacheFacts.

(** ** CoreCommands: the other commands, and the prompt in full *)

Module CoreCommandsExtra.
Import Js CoreCommands.

Section Facts.

Context {time : Type}.
Variable Time_fromRaw : Z -> time.
Variable BigInt_parse : string -> option Z.
Variable time_as_bigint : time -> Z.

Local Abbreviation promptForTimestamp :=
  (CoreCommands.promptForTimestamp Time_fromRaw BigInt_parse).
Local Abbreviation PanToTimestamp_callback :=
  (CoreCommands.PanToTimestamp_callback Time_fromRaw BigInt_parse time_as_bigint).
Local Abbreviation onTraceLoad :=
  (CoreCommands.onTraceLoad Time_fromRaw BigInt_parse time_as_bigint).
Local Abbreviation Host := (@CoreCommands.Host time).

(** The three ways a prompt can end. *)
Lemma promptForTimestamp_cases (message : string) (h : Host) :
  promptForTimestamp message h =
    match prompt_reply h message with
    | None => (Normal None, log (WindowPrompt message) h)
    | Some tsStr =>
        match BigInt_parse tsStr with
        | Some n => (Normal (Some (Time_fromRaw n)), log (WindowPrompt message) h)
        | None => (Normal None,
                   log (WindowAlert (tsStr +:+ " is not an integer"))
                     (log (WindowPrompt message) h))
        end
    end.
Proof.
  unfold CoreCommands.promptForTimestamp, bind, window_prompt, try_catch, BigInt.
  destruct (prompt_reply h message) as [tsStr|]; [|reflexivity].
  simpl. destruct (BigInt_parse tsStr); reflexivity.
Qed.

(** X1: when the user's answer is a string that [BigInt] accepts as [n],
    [promptForTimestamp] returns [Time.fromRaw(n)] after the prompt alone
    (no alert), and the 'Pan To Timestamp' command, run without an
    argument, pans once, to [Time.fromRaw] of that timestamp: the callback
    applies [Time.fromRaw] to what [promptForTimestamp] returned. *)
Theorem prompt_accepts_integer (h : Host) (message tsStr : string) (n : Z) :
  prompt_reply h message = Some tsStr ->
  BigInt_parse tsStr = Some n ->
  promptForTimestamp message h
    = (Normal (Some (Time_fromRaw n)), log (WindowPrompt message) h)
  /\ (message = "Enter a timestamp" ->
      forall args, exists_ (first_arg args) = false ->
        PanToTimestamp_callback args h
          = (Normal tt,
             log (TimelinePanToTimestamp
                    (Time_fromRaw (time_as_bigint (Time_fromRaw n))))
               (log (WindowPrompt message) h))).
Proof.
  intros Hreply Hparse.
  assert (Hprompt : promptForTimestamp message h
                    = (Normal (Some (Time_fromRaw n)), log (WindowPrompt message) h)).
  { rewrite promptForTimestamp_cases, Hreply, Hparse. reflexivity. }
  split; [exact Hprompt|].
  intros -> args Hargs.
  rewrite (CoreCommandsFacts.callback_without_argument _ _ _ _ _ Hargs), Hprompt.
  reflexivity.
Qed.

(** X2: [promptForTimestamp] never throws, whatever the user answers: the
    SyntaxError of [BigInt] does not leave it.  It prompts exactly once,
    leaves the sidebar alone, returns a timestamp exactly when the answer
    is a string that [BigInt] accepts, and alerts (once) exactly when the
    answer is a string that [BigInt] rejects. *)
Theorem prompt_never_throws (h : Host) (message : string) :
  exists result alerts,
    promptForTimestamp message h
      = (Normal result,
         mkHost (sidebar_visible h) (prompt_reply h)
           (calls h ++ WindowPrompt message :: alerts))
    /\ (is_Some result
        <-> exists tsStr n, prompt_reply h message = Some tsStr
                            /\ BigInt_parse tsStr = Some n
                            /\ result = Some (Time_fromRaw n))
    /\ ((exists tsStr, prompt_reply h message = Some tsStr
                       /\ BigInt_parse tsStr = None
                       /\ alerts = [WindowAlert (tsStr +:+ " is not an integer")])
        \/ ((~ exists tsStr, prompt_reply h message = Some tsStr
                             /\ BigInt_parse tsStr = None)
            /\ alerts = [])).
Proof.
  rewrite promptForTimestamp_cases.
  destruct (prompt_reply h message) as [tsStr|] eqn:Hreply.
  - destruct (BigInt_parse tsStr) as [n|] eqn:Hparse.
    + exists (Some (Time_fromRaw n)), []. split; [reflexivity|]. split.
      * split; [intros _; exists tsStr, n; auto | intros _; eauto].
      * right. split; [|reflexivity].
        intros (s & [= <-] & Hnone). congruence.
    + exists None, [WindowAlert (tsStr +:+ " is not an integer")].
      split; [unfold log; simpl; now rewrite <- app_assoc|]. split.
      * split; [intros [t Ht]; discriminate Ht|].
        intros (s & n & [= <-] & Hn & _). congruence.
      * left. exists tsStr. auto.
  - exists None, []. split; [reflexivity|]. split.
    + split; [intros [t Ht]; discriminate Ht|].
      intros (s & n & Hs & _). discriminate Hs.
    + right. split; [|reflexivity]. intros (s & Hs & _). discriminate Hs.
Qed.

(** What one invocation of the 'Pan To Timestamp' callback does to the
    host. *)
Lemma pan_callback_effect (args : list JsValue) (h : Host) :
  exists outcome new,
    PanToTimestamp_callback args h
      = (outcome, mkHost (sidebar_visible h) (prompt_reply h) (calls h ++ new))
    /\ (length (List.filter is_pan new) <= 1)%nat
    /\ (length (List.filter is_prompt new) <= 1)%nat
    /\ Forall (fun c => is_prompt c || is_alert c || is_pan c = true) new
    /\ ((exists e, outcome = Throw e)
        <-> exists_ (first_arg args) = true
            /\ String.eqb (typeof (first_arg args)) "bigint" = false).
Proof.
  destruct h as [visible reply cs].
  destruct (exists_ (first_arg args)) eqn:Hdefined.
  - unfold CoreCommands.PanToTimestamp_callback. rewrite Hdefined.
    destruct (String.eqb (typeof (first_arg args)) "bigint") eqn:Htype.
    + apply CoreCommandsFacts.typeof_bigint in Htype as [n ->]. simpl.
      exists (Normal tt), [TimelinePanToTimestamp (Time_fromRaw n)].
      split; [reflexivity|]. do 2 (split; [simpl; lia|]).
      split; [repeat constructor|].
      split; [intros [e He]; discriminate He | intros [_ Hfalse]; discriminate Hfalse].
    + simpl. unfold bind, completed, throw.
      destruct (ToString (first_arg args)) as [text|e].
      * exists (Throw (Error (text +:+ " is not a bigint"))), [].
        rewrite app_nil_r. split; [reflexivity|]. do 2 (split; [simpl; lia|]).
        split; [constructor|]. split; eauto.
      * exists (Throw e), []. rewrite app_nil_r.
        split; [reflexivity|]. do 2 (split; [simpl; lia|]).
        split; [constructor|]. split; eauto.
  - rewrite (CoreCommandsFacts.callback_without_argument _ _ _ _ _ Hdefined).
    rewrite promptForTimestamp_cases. simpl.
    destruct (reply "Enter a timestamp") as [tsStr|].
    + destruct (BigInt_parse tsStr) as [n|].
      * exists (Normal tt),
          [WindowPrompt "Enter a timestamp";
           TimelinePanToTimestamp (Time_fromRaw (time_as_bigint (Time_fromRaw n)))].
        unfold log. simpl. rewrite <- app_assoc.
        split; [reflexivity|]. do 2 (split; [simpl; lia|]).
        split; [repeat constructor|].
        split; [intros [e He]; discriminate He | intros [Hfalse _]; discriminate Hfalse].
      * exists (Normal tt),
          [WindowPrompt "Enter a timestamp";
           WindowAlert (tsStr +:+ " is not an integer")].
        unfold log. simpl. rewrite <- app_assoc.
        split; [reflexivity|]. do 2 (split; [simpl; lia|]).
        split; [repeat constructor|].
        split; [intros [e He]; discriminate He | intros [Hfalse _]; discriminate Hfalse].
    + exists (Normal tt), [WindowPrompt "Enter a timestamp"].
      split; [reflexivity|]. do 2 (split; [simpl; lia|]).
      split; [repeat constructor|].
      split; [intros [e He]; discriminate He | intros [Hfalse _]; discriminate Hfalse].
Qed.

(** X3: the 'Pan To Timestamp' callback throws exactly when its first
    argument is defined and is not a bigint; in every other case (a
    bigint, or no argument and any answer to the prompt, a cancelled
    prompt included) it returns normally. *)
Theorem pan_to_timestamp_throws_iff (args : list JsValue) (h : Host) :
  (exists e, fst (PanToTimestamp_callback args h) = Throw e)
  <-> exists_ (first_arg args) = true
      /\ String.eqb (typeof (first_arg args)) "bigint" = false.
Proof.
  destruct (pan_callback_effect args h)
    as (outcome & new & -> & _ & _ & _ & Hthrow).
  exact Hthrow.
Qed.

(** X4: one invocation of the 'Pan To Timestamp' callback requests at most
    one pan; it calls nothing of the host but [window.prompt],
    [window.alert] and [timeline.panToTimestamp], and leaves the sidebar
    as it was. *)
Theorem pan_to_timestamp_pans_at_most_once (args : list JsValue) (h : Host) :
  exists new,
    snd (PanToTimestamp_callback args h)
      = mkHost (sidebar_visible h) (prompt_reply h) (calls h ++ new)
    /\ (length (List.filter is_pan new) <= 1)%nat
    /\ (length (List.filter is_prompt new) <= 1)%nat
    /\ (forall c, In c new -> is_prompt c || is_alert c || is_pan c = true).
Proof.
  destruct (pan_callback_effect args h)
    as (outcome & new & Heq & Hpan & Hprompt & Hall & _).
  exists new. rewrite Heq. split; [reflexivity|].
  split; [exact Hpan|]. split; [exact Hprompt|].
  intros c Hc. rewrite Forall_forall in Hall. apply Hall.
  now apply list_elem_of_In.
Qed.

(** X5: two invocations of the 'Toggle left sidebar' callback in a row
    leave the sidebar's visibility as it was: the first hides a visible
    sidebar and the second shows it again, or the other way round. *)
Theorem toggle_twice_restores (h : Host) (args1 args2 : list JsValue) :
  let h1 := snd (ToggleLeftSidebar_callback args1 h) in
  let h2 := snd (ToggleLeftSidebar_callback args2 h1) in
  fst (ToggleLeftSidebar_callback args1 h) = Normal tt
  /\ fst (ToggleLeftSidebar_callback args2 h1) = Normal tt
  /\ sidebar_visible h1 = negb (sidebar_visible h)
  /\ sidebar_visible h2 = sidebar_visible h
  /\ calls h2 = calls h ++
       [SidebarIsVisible; if sidebar_visible h then SidebarHide else SidebarShow;
        SidebarIsVisible; if sidebar_visible h then SidebarShow else SidebarHide].
Proof.
  destruct h as [[] reply cs]; cbv zeta;
    unfold ToggleLeftSidebar_callback, bind, sidebar_isVisible, sidebar_hide,
      sidebar_show; simpl; rewrite <- !app_assoc; auto.
Qed.

(** Going through the ten registered commands, one goal for each. *)
Ltac each_command Hin :=
  unfold CoreCommands.onTraceLoad, registerCommand in Hin; simpl in Hin;
  repeat (destruct Hin as [<-|Hin]); [..|contradiction Hin]; simpl.

(** X6: no command but 'Toggle left sidebar' changes the sidebar's
    visibility, whatever its arguments and whether it returns or
    throws. *)
Theorem other_commands_keep_sidebar (c : Command) :
  In c (onTraceLoad []) ->
  id c <> "dev.perfetto.CoreCommands#ToggleLeftSidebar" ->
  forall (args : list JsValue) (h : Host),
    sidebar_visible (snd (callback c args h)) = sidebar_visible h.
Proof.
  intros Hin. each_command Hin; intros Hid args h; try reflexivity.
  - contradiction Hid. reflexivity.
  - destruct (pan_callback_effect args h) as (outcome & new & -> & _).
    reflexivity.
Qed.

(** X7: every command but 'Pan To Timestamp' returns normally on every
    host and pays no attention to its arguments; it never prompts, never
    alerts and never pans. *)
Theorem other_commands_never_throw (c : Command) :
  In c (onTraceLoad []) ->
  id c <> "dev.perfetto.CoreCommands#PanToTimestamp" ->
  forall (args args' : list JsValue) (h : Host),
    callback c args h = callback c args' h
    /\ fst (callback c args h) = Normal tt
    /\ prompt_reply (snd (callback c args h)) = prompt_reply h
    /\ exists new,
         calls (snd (callback c args h)) = calls h ++ new
         /\ Forall (fun call => is_prompt call || is_alert call || is_pan call = false)
              new.
Proof.
  intros Hin. each_command Hin; intros Hid args args' h;
    try (contradiction Hid; reflexivity);
    try (repeat split; eexists; split; [reflexivity|repeat constructor]).
  unfold ToggleLeftSidebar_callback, bind, sidebar_isVisible, sidebar_hide,
    sidebar_show.
  destruct h as [[] reply cs]; simpl; repeat split;
    (eexists; split; [rewrite <- app_assoc; reflexivity|repeat constructor]).
Qed.

(** X8: each of the six 'Run query' commands and 'Debug SQL performance'
    opens exactly one query tab, with a query text and a title that are
    not empty; it does so on every host, whatever its arguments, and
    calls nothing else. *)
Theorem query_commands_open_one_tab (c : Command) :
  In c (onTraceLoad []) ->
  String.prefix "dev.perfetto.CoreCommands#RunQuery" (id c) = true
  \/ id c = "dev.perfetto.CoreCommands#DebugSqlPerformance" ->
  exists query title,
    query <> "" /\ title <> ""
    /\ forall (args : list JsValue) (h : Host),
         callback c args h = (Normal tt, log (TabsOpenQuery query title) h).
Proof.
  intros Hin. each_command Hin;
    intros [Hid|Hid]; try discriminate Hid;
    (eexists _, _; split; [|split; [|intros args h; reflexivity]]; discriminate).
Qed.

(** [startsWith]: a string has a prefix exactly when it is that prefix
    followed by something. *)
Lemma prefix_append (p s : string) :
  String.prefix p s = true <-> exists rest, s = p +:+ rest.
Proof.
  revert s. induction p as [|a p IH]; intros s.
  - split; [intros _; exists s; reflexivity | intros _; destruct s; reflexivity].
  - destruct s as [|b s]; simpl.
    + split; [discriminate | intros [rest Hrest]; discriminate Hrest].
    + destruct (ascii_dec a b) as [->|Hne].
      * rewrite IH. split; intros [rest Hrest]; exists rest;
          change (String b p +:+ rest) with (String b (p +:+ rest)) in *;
          congruence.
      * split; [discriminate|]. intros [rest Hrest].
        change (String a p +:+ rest) with (String a (p +:+ rest)) in Hrest.
        congruence.
Qed.

(** X9: 'Pin ftrace tracks' asks the timeline, once, to pin the tracks
    whose tags have a name that begins with 'Ftrace Events Cpu ': a track
    without a name is not among them.  'Unpin all tracks' asks it, once,
    to unpin with a predicate that every track satisfies. *)
Theorem pin_and_unpin_predicates :
  exists pin unpin,
    List.find (fun c => String.eqb (id c) "dev.perfetto.CoreCommands#PinFtraceTracks")
      (onTraceLoad []) = Some pin
    /\ List.find (fun c => String.eqb (id c) "dev.perfetto.CoreCommands#UnpinAllTracks")
         (onTraceLoad []) = Some unpin
    /\ (exists p,
          (forall (args : list JsValue) (h : Host),
             callback pin args h = (Normal tt, log (TimelinePinTracksByPredicate p) h))
          /\ p (Build_TrackTags None) = false
          /\ forall tags,
               p tags = true
               <-> exists rest, tags_name tags = Some ("Ftrace Events Cpu " +:+ rest))
    /\ (exists p,
          (forall (args : list JsValue) (h : Host),
             callback unpin args h = (Normal tt, log (TimelineUnpinTracksByPredicate p) h))
          /\ forall tags, p tags = true).
Proof.
  eexists _, _. split; [reflexivity|]. split; [reflexivity|]. split.
  - exists isFtraceTrack. split; [reflexivity|]. split; [reflexivity|].
    intros [[n|]]; unfold isFtraceTrack; simpl tags_name.
    + rewrite prefix_append. split; intros [rest Hrest]; exists rest; congruence.
    + split; [discriminate | intros [rest Hrest]; discriminate Hrest].
  - exists (fun _ => true). split; reflexivity.
Qed.

(** X10: the names of the ten commands are pairwise distinct, and every
    command id is the plugin's [pluginId], then '#', then a local name
    that is not empty. *)
Theorem command_names_and_plugin_id :
  NoDup (map name (onTraceLoad []))
  /\ Forall (fun c => exists local,
                local <> "" /\ id c = pluginId +:+ "#" +:+ local)
       (onTraceLoad []).
Proof.
  split.
  - apply (bool_decide_unpack _). vm_compute. exact I.
  - unfold CoreCommands.onTraceLoad, registerCommand. simpl.
    repeat constructor; (eexists; split; [|reflexivity]; discriminate).
Qed.

End Facts.

Lemma prompt_accepts_integer_witness :
  CoreCommands.PanToTimestamp_callback (fun n : Z => n) StringToBigInt (fun ts : Z => ts) [JsNull]
    (mkHost true (fun _ => Some " 0x10 ") [])
  = (Normal tt,
     mkHost true (fun _ => Some " 0x10 ")
       [WindowPrompt "Enter a timestamp"; TimelinePanToTimestamp 16%Z]).
Proof.
  apply (prompt_accepts_integer (fun n : Z => n) StringToBigInt (fun ts : Z => ts)
           (mkHost true (fun _ => Some " 0x10 ") []) "Enter a timestamp" " 0x10 " 16);
    reflexivity.
Defined.

(** Were [Time.fromRaw] to add one, the prompted "5" would be panned to
    at 7 and the argument [5n] at 6: the prompt path converts twice. *)
Example prompt_path_converts_twice :
  CoreCommands.PanToTimestamp_callback (fun n : Z => (n + 1)%Z) StringToBigInt
    (fun ts : Z => ts) [] (mkHost true (fun _ => Some "5") [])
  = (Normal tt,
     mkHost true (fun _ => Some "5")
       [WindowPrompt "Enter a timestamp"; TimelinePanToTimestamp 7%Z])
  /\ CoreCommands.PanToTimestamp_callback (fun n : Z => (n + 1)%Z) StringToBigInt
       (fun ts : Z => ts) [JsBigInt 5] (mkHost true (fun _ => Some "5") [])
     = (Normal tt,
        mkHost true (fun _ => Some "5") [TimelinePanToTimestamp 6%Z]).
Proof. split; reflexivity. Qed.

Lemma other_commands_keep_sidebar_witness :
  sidebar_visible
    (snd (CoreCommands.PanToTimestamp_callback (fun n : Z => n) StringToBigInt (fun ts : Z => ts)
            [JsBigInt 7] (mkHost false (fun _ => None) [])))
  = false.
Proof.
  apply (other_commands_keep_sidebar (fun n : Z => n) StringToBigInt (fun ts : Z => ts)
           (mkCommand "dev.perfetto.CoreCommands#PanToTimestamp" "Pan To Timestamp"
              (CoreCommands.PanToTimestamp_callback (fun n : Z => n) StringToBigInt (fun ts : Z => ts))
              None)).
  - simpl. do 9 right. left. reflexivity.
  - discriminate.
Defined.

Lemma other_commands_never_throw_witness :
  fst (ToggleLeftSidebar_callback [JsSymbol "s"] (mkHost (time:=Z) true (fun _ => None) []))
  = Normal tt.
Proof.
  apply (other_commands_never_throw (fun n : Z => n) StringToBigInt (fun ts : Z => ts)
           (mkCommand "dev.perfetto.CoreCommands#ToggleLeftSidebar"
              "Toggle left sidebar" ToggleLeftSidebar_callback (Some "!Mod+B"))
           ltac:(simpl; left; reflexivity) ltac:(discriminate)
           [JsSymbol "s"] [] (mkHost true (fun _ => None) [])).
Defined.

Lemma query_commands_open_one_tab_witness :
  exists query title,
    query <> "" /\ title <> ""
    /\ forall (args : list JsValue) (h : @Host Z),
         openQuery_callback SQL_STATS "Recent SQL queries" args h
         = (Normal tt, log (TabsOpenQuery query title) h).
Proof.
  apply (query_commands_open_one_tab (fun n : Z => n) StringToBigInt (fun ts : Z => ts)
           (mkCommand "dev.perfetto.CoreCommands#DebugSqlPerformance"
              "Debug SQL performance"
              (openQuery_callback SQL_STATS "Recent SQL queries") None)).
  - simpl. do 6 right. left. reflexivity.
  - right. reflexivity.
Defined.

End CoreCommandsExtra.

(** ** The debug-track plugin: the registered panel at work *)

Module DebugTrackExtra.
Import DebugTrack.

Section Facts.

Variable DEBUG_SLICE_TRACK_URI : string.
Variable DebugSliceDetailsTab_kind : string.
Context {Engine TrackContext Config Rng : Type}.
Variable uuidv4 : Rng -> string * Rng.

Local Abbreviation onTraceLoad :=
  (DebugTrack.onTraceLoad (TrackContext:=TrackContext) (Config:=Config)
     DEBUG_SLICE_TRACK_URI DebugSliceDetailsTab_kind uuidv4).

(** X11: the details panel that [onTraceLoad] registers, asked about a
    'GENERIC_SLICE' selection whose panel kind is
    [DebugSliceDetailsTab.kind], makes a tab from that selection's
    configuration, the engine of the context it was registered on and one
    freshly drawn uuid; asked about a selection of any other kind it
    makes none and draws no uuid. *)
Theorem registered_panel_resolves (ctx : PluginContextTrace)
  (d : DetailsPanelConfig Config) (g : Rng) :
  panel_kind d = DebugSliceDetailsTab_kind ->
  exists panel : @BottomTabToSCSAdapter Engine Config Rng,
    detailsPanels (onTraceLoad ctx) = detailsPanels ctx ++ [panel]
    /\ adapter_tabFactory panel (GenericSliceSelection d) g
         = (Some (mkDebugSliceDetailsTab (panel_config d) (engine ctx)
                    (fst (uuidv4 g))),
            snd (uuidv4 g))
    /\ forall kind other,
         adapter_tabFactory panel (OtherSelection kind other) g = (None, g).
Proof.
  intros Hkind. eexists. split; [reflexivity|]. simpl.
  unfold DebugTrack.tabFactory. simpl. split.
  - rewrite Hkind, String.eqb_refl. now destruct (uuidv4 g).
  - intros kind other. now rewrite other.
Qed.

End Facts.

Lemma registered_panel_resolves_witness :
  exists panel : @BottomTabToSCSAdapter string nat nat,
    detailsPanels
      (DebugTrack.onTraceLoad (TrackContext:=unit) "perfetto.DebugSlices"
         "DebugSliceDetailsTab" (fun g : nat => ("uuid", S g))
         (mkContext "engine" ∅ [] []))
    = [panel]
    /\ adapter_tabFactory panel
         (GenericSliceSelection (mkDetailsPanelConfig "DebugSliceDetailsTab" 5%nat))
         0%nat
       = (Some (mkDebugSliceDetailsTab 5%nat "engine" "uuid"), 1%nat).
Proof.
  destruct (registered_panel_resolves "perfetto.DebugSlices" "DebugSliceDetailsTab"
              (TrackContext:=unit) (fun g : nat => ("uuid", S g))
              (mkContext "engine" ∅ [] [])
              (mkDetailsPanelConfig "DebugSliceDetailsTab" 5%nat) 0%nat eq_refl)
    as (panel & Hpanels & Htab & _).
  exists panel. split; [exact Hpanels | exact Htab].
Defined.

End DebugTrackExtra.
